(** * ros2_kdl_package/launch/my_aruco.launch.py

    A shallow embedding of the launch file [my_aruco.launch.py] and of the
    part of the ROS 2 launch library it calls.

    The launch file defines one function, [generate_launch_description],
    which builds three launch entities: an inclusion of the [aruco_ros]
    launch file [single.launch.py], a [tf2_ros] static transform publisher
    and an [rqt_image_view] viewer.

    Two pieces of the outside world are visible to the file:
    - the ament package index, read eagerly by [FindPackageShare.find]
      while the description is being built;
    - the launch configurations of the launch context, read later, when the
      launch runtime performs the [LaunchConfiguration] substitutions that
      the description carries.

    Both are Python dictionaries keyed by strings and are modelled as
    [gmap string string]. *)

From stdpp Require Import base option list strings gmap.

(** ** Exceptions *)

(** The two exceptions that the library calls made by the file can raise:
    [PackageNotFoundError] from the package index lookup and
    [SubstitutionFailure] from a launch configuration that is neither set
    nor defaulted. *)
Inductive Exception : Type :=
  | PackageNotFoundError (package_name : string)
  | SubstitutionFailure (variable_name : string).

(** A computation that either raises or returns: [inl e] is [raise e],
    [inr v] is [return v]. *)
#[global] Instance Exception_ret : MRet (sum Exception) :=
  λ _ v, inr v.

#[global] Instance Exception_bind : MBind (sum Exception) :=
  λ _ _ k m, match m with inl e => inl e | inr v => k v end.

(** ** Substitutions *)

(** What the launch library accepts wherever a value is expected: a Python
    [str] (kept by the library as a [TextSubstitution]) or a
    [LaunchConfiguration(variable_name, default=...)]. *)
Inductive Substitution : Type :=
  | TextSubstitution (text : string)
  | LaunchConfiguration (variable_name : string) (default : option string).

(** [Substitution.perform(context)]: a text performs to itself; a launch
    configuration performs to the value stored under its name in
    [context.launch_configurations], to its default when the name is
    absent, and raises when there is no default either. *)
Definition perform (launch_configurations : gmap string string)
    (s : Substitution) : Exception + string :=
  match s with
  | TextSubstitution text => inr text
  | LaunchConfiguration variable_name default =>
      match launch_configurations !! variable_name with
      | Some value => inr value
      | None =>
          match default with
          | Some text => inr text
          | None => inl (SubstitutionFailure variable_name)
          end
      end
  end.

(** ** Package lookup *)

(** [ament_index_python.get_package_share_directory]: the index maps the
    name of every installed package to its share directory; a package that
    is not installed raises [PackageNotFoundError]. *)
Definition get_package_share_directory (ament_index : gmap string string)
    (package_name : string) : Exception + string :=
  match ament_index !! package_name with
  | Some share => inr share
  | None => inl (PackageNotFoundError package_name)
  end.

(** [FindPackageShare(package)]: the object remembers the package it was
    built for, but [find] looks up the name it is handed. *)
Record FindPackageShare : Type := { find_package : Substitution }.

Definition find (ament_index : gmap string string) (self : FindPackageShare)
    (package_name : string) : Exception + string :=
  get_package_share_directory ament_index package_name.

(** ** Launch entities *)

(** The records are parametric in the type [V] of their values: the launch
    file builds them over [Substitution]; the launch runtime sees them over
    [string], once every substitution has been performed. *)

Record PythonLaunchDescriptionSource (V : Type) : Type :=
  { location : V }.

Record IncludeLaunchDescription (V : Type) : Type :=
  { launch_description_source : PythonLaunchDescriptionSource V;
    launch_arguments : list (string * V) }.

(** [arguments] is [None] when the keyword is not passed to [Node]. *)
Record Node (V : Type) : Type :=
  { package : V;
    executable : V;
    name : V;
    arguments : option (list V);
    output : V }.

Inductive LaunchDescriptionEntity (V : Type) : Type :=
  | IncludeAction (action : IncludeLaunchDescription V)
  | NodeAction (action : Node V).

Record LaunchDescription (V : Type) : Type :=
  { entities : list (LaunchDescriptionEntity V) }.

Arguments location {V} _.
Arguments launch_description_source {V} _.
Arguments launch_arguments {V} _.
Arguments package {V} _.
Arguments executable {V} _.
Arguments name {V} _.
Arguments arguments {V} _.
Arguments output {V} _.
Arguments IncludeAction {V} _.
Arguments NodeAction {V} _.
Arguments entities {V} _.

(** ** The launch file *)

Definition marker_size : Substitution :=
  LaunchConfiguration "marker_size" (Some "0.1").

Definition marker_id : Substitution :=
  LaunchConfiguration "marker_id" (Some "201").

Definition aruco_launch_file (ament_index : gmap string string)
    : Exception + string :=
  share ← find ament_index {| find_package := TextSubstitution "aruco_ros" |}
             "aruco_ros";
  mret (share +:+ "/launch/single.launch.py").

(** The dictionary literal has two distinct keys; [.items()] lists them in
    insertion order. *)
Definition aruco_single_launch (aruco_launch_file : string)
    : IncludeLaunchDescription Substitution :=
  {| launch_description_source :=
       {| location := TextSubstitution aruco_launch_file |};
     launch_arguments :=
       [("marker_size", marker_size); ("marker_id", marker_id)] |}.

Definition static_transform_publisher : Node Substitution :=
  {| package := TextSubstitution "tf2_ros";
     executable := TextSubstitution "static_transform_publisher";
     name := TextSubstitution "static_transform_publisher";
     arguments :=
       Some (TextSubstitution <$>
               ["0"; "0"; "0"; "1.57"; "3.14"; "1.57"; "camera_link";
                "stereo_gazebo_left_camera_optical_frame"]);
     output := TextSubstitution "screen" |}.

Definition rqt_image_view : Node Substitution :=
  {| package := TextSubstitution "rqt_image_view";
     executable := TextSubstitution "rqt_image_view";
     name := TextSubstitution "rqt_image_view";
     arguments := None;
     output := TextSubstitution "screen" |}.

Definition generate_launch_description (ament_index : gmap string string)
    : Exception + LaunchDescription Substitution :=
  aruco_launch_file ← aruco_launch_file ament_index;
  mret {| entities :=
            [IncludeAction (aruco_single_launch aruco_launch_file);
             NodeAction static_transform_publisher;
             NodeAction rqt_image_view] |}.

(** ** What the launch runtime sees *)

(** The runtime performs the substitutions of an entity in its launch
    context.  The functions below do this field by field, left to right,
    and stop at the first failure. *)

Definition perform_launch_argument (launch_configurations : gmap string string)
    (argument : string * Substitution) : Exception + (string * string) :=
  value ← perform launch_configurations argument.2;
  mret (argument.1, value).

Definition perform_launch_arguments (launch_configurations : gmap string string)
    (action : IncludeLaunchDescription Substitution)
    : Exception + list (string * string) :=
  mapM (perform_launch_argument launch_configurations)
       (launch_arguments action).

Definition perform_include (launch_configurations : gmap string string)
    (action : IncludeLaunchDescription Substitution)
    : Exception + IncludeLaunchDescription string :=
  path ← perform launch_configurations
            (location (launch_description_source action));
  forwarded ← perform_launch_arguments launch_configurations action;
  mret {| launch_description_source := {| location := path |};
          launch_arguments := forwarded |}.

Definition perform_node (launch_configurations : gmap string string)
    (action : Node Substitution) : Exception + Node string :=
  package' ← perform launch_configurations (package action);
  executable' ← perform launch_configurations (executable action);
  name' ← perform launch_configurations (name action);
  arguments' ←
    match arguments action with
    | None => mret None
    | Some l => l' ← mapM (perform launch_configurations) l; mret (Some l')
    end;
  output' ← perform launch_configurations (output action);
  mret {| package := package'; executable := executable'; name := name';
          arguments := arguments'; output := output' |}.

Definition perform_entity (launch_configurations : gmap string string)
    (entity : LaunchDescriptionEntity Substitution)
    : Exception + LaunchDescriptionEntity string :=
  match entity with
  | IncludeAction action =>
      action' ← perform_include launch_configurations action;
      mret (IncludeAction action')
  | NodeAction action =>
      action' ← perform_node launch_configurations action;
      mret (NodeAction action')
  end.

Definition perform_launch_description
    (launch_configurations : gmap string string)
    (description : LaunchDescription Substitution)
    : Exception + LaunchDescription string :=
  entities' ← mapM (perform_entity launch_configurations)
                   (entities description);
  mret {| entities := entities' |}.

(** One invocation of the launch file: the description is generated
    against the package index and then performed in the launch context. *)
Definition launch (ament_index launch_configurations : gmap string string)
    : Exception + LaunchDescription string :=
  description ← generate_launch_description ament_index;
  perform_launch_description launch_configurations description.

(** ** Sample environments *)

Definition humble_index : gmap string string :=
  {[ "aruco_ros" := "/opt/ros/humble/share/aruco_ros" ]}.

Definition overlay_index : gmap string string :=
  {[ "aruco_ros" := "/root/ros2_ws/install/aruco_ros/share/aruco_ros" ]}.

Definition sample_overrides : gmap string string :=
  <[ "marker_size" := "0.2" ]> (<[ "marker_id" := "26" ]> ∅).

Definition malformed_overrides : gmap string string :=
  <[ "marker_size" := "big" ]> (<[ "marker_id" := "x1" ]> ∅).

(** An installation that has the two node packages but not [aruco_ros]. *)
Definition bare_index : gmap string string :=
  <[ "tf2_ros" := "/opt/ros/humble/share/tf2_ros" ]>
    (<[ "rqt_image_view" := "/opt/ros/humble/share/rqt_image_view" ]> ∅).

Definition humble_description : LaunchDescription Substitution :=
  {| entities :=
       [IncludeAction
          (aruco_single_launch
             "/opt/ros/humble/share/aruco_ros/launch/single.launch.py");
        NodeAction static_transform_publisher;
        NodeAction rqt_image_view] |}.

(** * Properties *)

(** ** Running the launch file on the sample environments *)

Example launch_humble_defaults :
  launch humble_index ∅ =
  inr {| entities :=
    [IncludeAction
       {| launch_description_source :=
            {| location :=
                 "/opt/ros/humble/share/aruco_ros/launch/single.launch.py" |};
          launch_arguments :=
            [("marker_size", "0.1"); ("marker_id", "201")] |};
     NodeAction {| package := "tf2_ros";
                   executable := "static_transform_publisher";
                   name := "static_transform_publisher";
                   arguments :=
                     Some ["0"; "0"; "0"; "1.57"; "3.14"; "1.57";
                           "camera_link";
                           "stereo_gazebo_left_camera_optical_frame"];
                   output := "screen" |};
     NodeAction {| package := "rqt_image_view";
                   executable := "rqt_image_view";
                   name := "rqt_image_view";
                   arguments := None;
                   output := "screen" |}] |}.
Proof. vm_compute. reflexivity. Qed.

Example forwarded_sample_overrides :
  perform_launch_arguments sample_overrides
    (aruco_single_launch
       "/opt/ros/humble/share/aruco_ros/launch/single.launch.py")
  = inr [("marker_size", "0.2"); ("marker_id", "26")].
Proof. vm_compute. reflexivity. Qed.

Example generate_without_aruco_ros :
  generate_launch_description ∅ = inl (PackageNotFoundError "aruco_ros").
Proof. vm_compute. reflexivity. Qed.

(** ** The package lookup decides whether a description is returned *)

Section generation.
Implicit Types (ament_index : gmap string string).
Implicit Types (description : LaunchDescription Substitution).

Lemma aruco_launch_file_found ament_index share :
  ament_index !! "aruco_ros" = Some share →
  aruco_launch_file ament_index = inr (share +:+ "/launch/single.launch.py").
Proof.
  intros Hshare.
  unfold aruco_launch_file, find, get_package_share_directory.
  rewrite Hshare. reflexivity.
Qed.

Lemma aruco_launch_file_missing ament_index :
  ament_index !! "aruco_ros" = None →
  aruco_launch_file ament_index = inl (PackageNotFoundError "aruco_ros").
Proof.
  intros Hmissing.
  unfold aruco_launch_file, find, get_package_share_directory.
  rewrite Hmissing. reflexivity.
Qed.

Lemma generate_launch_description_found ament_index share :
  ament_index !! "aruco_ros" = Some share →
  generate_launch_description ament_index =
  inr {| entities :=
           [IncludeAction
              (aruco_single_launch (share +:+ "/launch/single.launch.py"));
            NodeAction static_transform_publisher;
            NodeAction rqt_image_view] |}.
Proof.
  intros Hshare. unfold generate_launch_description.
  rewrite (aruco_launch_file_found _ _ Hshare). reflexivity.
Qed.

Lemma generate_launch_description_missing ament_index :
  ament_index !! "aruco_ros" = None →
  generate_launch_description ament_index =
  inl (PackageNotFoundError "aruco_ros").
Proof.
  intros Hmissing. unfold generate_launch_description.
  rewrite (aruco_launch_file_missing _ Hmissing). reflexivity.
Qed.

(** A returned description pins down the lookup that produced it. *)
Lemma generate_launch_description_inr ament_index description :
  generate_launch_description ament_index = inr description →
  ∃ share,
    ament_index !! "aruco_ros" = Some share ∧
    description =
    {| entities :=
         [IncludeAction
            (aruco_single_launch (share +:+ "/launch/single.launch.py"));
          NodeAction static_transform_publisher;
          NodeAction rqt_image_view] |}.
Proof.
  intros Hreturn.
  destruct (ament_index !! "aruco_ros") as [share|] eqn:Hlookup.
  - exists share. split; [reflexivity|].
    rewrite (generate_launch_description_found _ _ Hlookup) in Hreturn.
    congruence.
  - rewrite (generate_launch_description_missing _ Hlookup) in Hreturn.
    discriminate.
Qed.

Lemma generate_launch_description_agree ament_index1 ament_index2 :
  ament_index1 !! "aruco_ros" = ament_index2 !! "aruco_ros" →
  generate_launch_description ament_index1 =
  generate_launch_description ament_index2.
Proof.
  intros Hagree.
  unfold generate_launch_description, aruco_launch_file, find,
    get_package_share_directory.
  rewrite Hagree. reflexivity.
Qed.
End generation.

(** ** Performing the substitutions of the description *)

Section performing.
Implicit Types (launch_configurations : gmap string string).

Lemma perform_LaunchConfiguration_set launch_configurations variable d value :
  launch_configurations !! variable = Some value →
  perform launch_configurations (LaunchConfiguration variable d) = inr value.
Proof. intros Hset. simpl. rewrite Hset. reflexivity. Qed.

Lemma perform_LaunchConfiguration_unset launch_configurations variable text :
  launch_configurations !! variable = None →
  perform launch_configurations (LaunchConfiguration variable (Some text))
  = inr text.
Proof. intros Hunset. simpl. rewrite Hunset. reflexivity. Qed.

Lemma perform_LaunchConfiguration_defaulted
    launch_configurations variable text :
  perform launch_configurations (LaunchConfiguration variable (Some text))
  = inr (default text (launch_configurations !! variable)).
Proof.
  destruct (launch_configurations !! variable) as [value|] eqn:Hlookup.
  - apply perform_LaunchConfiguration_set, Hlookup.
  - apply perform_LaunchConfiguration_unset, Hlookup.
Qed.

(** A list of plain texts performs to itself in every context. *)
Lemma mapM_perform_text launch_configurations (texts : list string) :
  mapM (perform launch_configurations) (TextSubstitution <$> texts)
  = inr texts.
Proof.
  induction texts as [|text texts IH]; [reflexivity|].
  rewrite fmap_cons. simpl. rewrite IH. reflexivity.
Qed.

Lemma perform_launch_arguments_aruco launch_configurations file :
  perform_launch_arguments launch_configurations (aruco_single_launch file)
  = inr [("marker_size", default "0.1" (launch_configurations !! "marker_size"));
         ("marker_id", default "201" (launch_configurations !! "marker_id"))].
Proof.
  unfold perform_launch_arguments, aruco_single_launch, perform_launch_argument,
    marker_size, marker_id.
  cbn [launch_arguments mapM fst snd].
  rewrite !perform_LaunchConfiguration_defaulted. reflexivity.
Qed.

Lemma perform_include_aruco launch_configurations file :
  perform_include launch_configurations (aruco_single_launch file)
  = inr {| launch_description_source := {| location := file |};
           launch_arguments :=
             [("marker_size",
               default "0.1" (launch_configurations !! "marker_size"));
              ("marker_id",
               default "201" (launch_configurations !! "marker_id"))] |}.
Proof.
  unfold perform_include.
  rewrite perform_launch_arguments_aruco. reflexivity.
Qed.

Lemma perform_node_static_transform_publisher launch_configurations :
  perform_node launch_configurations static_transform_publisher
  = inr {| package := "tf2_ros";
           executable := "static_transform_publisher";
           name := "static_transform_publisher";
           arguments :=
             Some ["0"; "0"; "0"; "1.57"; "3.14"; "1.57"; "camera_link";
                   "stereo_gazebo_left_camera_optical_frame"];
           output := "screen" |}.
Proof.
  unfold perform_node, static_transform_publisher.
  cbn [package executable name arguments output perform mbind Exception_bind].
  rewrite mapM_perform_text. reflexivity.
Qed.

Lemma perform_node_rqt_image_view launch_configurations :
  perform_node launch_configurations rqt_image_view
  = inr {| package := "rqt_image_view";
           executable := "rqt_image_view";
           name := "rqt_image_view";
           arguments := None;
           output := "screen" |}.
Proof. reflexivity. Qed.

(** The closed form of one invocation on an installation with
    [aruco_ros]. *)
Lemma launch_found ament_index launch_configurations share :
  ament_index !! "aruco_ros" = Some share →
  launch ament_index launch_configurations =
  inr {| entities :=
    [IncludeAction
       {| launch_description_source :=
            {| location := share +:+ "/launch/single.launch.py" |};
          launch_arguments :=
            [("marker_size",
              default "0.1" (launch_configurations !! "marker_size"));
             ("marker_id",
              default "201" (launch_configurations !! "marker_id"))] |};
     NodeAction {| package := "tf2_ros";
                   executable := "static_transform_publisher";
                   name := "static_transform_publisher";
                   arguments :=
                     Some ["0"; "0"; "0"; "1.57"; "3.14"; "1.57";
                           "camera_link";
                           "stereo_gazebo_left_camera_optical_frame"];
                   output := "screen" |};
     NodeAction {| package := "rqt_image_view";
                   executable := "rqt_image_view";
                   name := "rqt_image_view";
                   arguments := None;
                   output := "screen" |}] |}.
Proof.
  intros Hshare. unfold launch.
  rewrite (generate_launch_description_found _ _ Hshare).
  unfold perform_launch_description.
  cbn [mbind Exception_bind entities mapM perform_entity].
  rewrite perform_include_aruco, perform_node_static_transform_publisher,
    perform_node_rqt_image_view.
  reflexivity.
Qed.

Lemma launch_missing ament_index launch_configurations :
  ament_index !! "aruco_ros" = None →
  launch ament_index launch_configurations
  = inl (PackageNotFoundError "aruco_ros").
Proof.
  intros Hmissing. unfold launch.
  rewrite (generate_launch_description_missing _ Hmissing). reflexivity.
Qed.

(** The only error of an invocation is the failed package lookup: the
    launch configurations never decide whether an invocation raises. *)
Lemma launch_error_is_package_lookup ament_index launch_configurations e :
  launch ament_index launch_configurations = inl e →
  ament_index !! "aruco_ros" = None ∧ e = PackageNotFoundError "aruco_ros".
Proof.
  intros Hraise.
  destruct (ament_index !! "aruco_ros") as [share|] eqn:Hlookup.
  - rewrite (launch_found _ _ _ Hlookup) in Hraise. discriminate.
  - rewrite (launch_missing _ _ Hlookup) in Hraise.
    split; [reflexivity|]. congruence.
Qed.

(** The environment matters only through the [aruco_ros] entry of the
    package index and the two marker entries of the launch context. *)
Lemma launch_agree ament_index1 ament_index2
    launch_configurations1 launch_configurations2 :
  ament_index1 !! "aruco_ros" = ament_index2 !! "aruco_ros" →
  launch_configurations1 !! "marker_size"
    = launch_configurations2 !! "marker_size" →
  launch_configurations1 !! "marker_id"
    = launch_configurations2 !! "marker_id" →
  launch ament_index1 launch_configurations1
  = launch ament_index2 launch_configurations2.
Proof.
  intros Hshare Hsize Hid.
  destruct (ament_index2 !! "aruco_ros") as [share|] eqn:Hlookup.
  - rewrite (launch_found _ _ _ Hshare), (launch_found _ _ _ Hlookup).
    rewrite Hsize, Hid. reflexivity.
  - rewrite (launch_missing _ _ Hshare), (launch_missing _ _ Hlookup).
    reflexivity.
Qed.
End performing.

(** ** Shape of the returned description *)

Section claims.
Implicit Types (ament_index : gmap string string).
Implicit Types (launch_configurations : gmap string string).
Implicit Types (description : LaunchDescription Substitution).

(** C1, as stated, fails on an installation without [aruco_ros]: the
    package lookup raises [PackageNotFoundError] and no description is
    returned. *)
Lemma generate_launch_description_raises_without_aruco_ros :
  generate_launch_description bare_index
    = inl (PackageNotFoundError "aruco_ros") ∧
  ¬ ∃ include tf viewer,
      generate_launch_description bare_index =
      inr {| entities :=
               [IncludeAction include; NodeAction tf; NodeAction viewer] |}.
Proof.
  assert (generate_launch_description bare_index
          = inl (PackageNotFoundError "aruco_ros")) as Hraise
    by (vm_compute; reflexivity).
  split; [exact Hraise|].
  intros (include & tf & viewer & Hreturn).
  rewrite Hraise in Hreturn. discriminate.
Qed.

(** C1 (amended): whenever the [aruco_ros] share directory is found in the
    package index, [generate_launch_description] returns a description of
    exactly three entities, in the order included sub-launch, static
    transform publisher node, image viewer node. *)
Theorem generate_launch_description_three_directives ament_index share :
  ament_index !! "aruco_ros" = Some share →
  ∃ include tf viewer,
    generate_launch_description ament_index =
    inr {| entities :=
             [IncludeAction include; NodeAction tf; NodeAction viewer] |} ∧
    executable tf = TextSubstitution "static_transform_publisher" ∧
    executable viewer = TextSubstitution "rqt_image_view".
Proof.
  intros Hshare.
  exists (aruco_single_launch (share +:+ "/launch/single.launch.py")),
    static_transform_publisher, rqt_image_view.
  split; [|split; reflexivity].
  apply generate_launch_description_found, Hshare.
Qed.

Lemma generate_launch_description_three_directives_witness :
  humble_index !! "aruco_ros" = Some "/opt/ros/humble/share/aruco_ros" ∧
  ∃ include tf viewer,
    generate_launch_description humble_index =
    inr {| entities :=
             [IncludeAction include; NodeAction tf; NodeAction viewer] |} ∧
    executable tf = TextSubstitution "static_transform_publisher" ∧
    executable viewer = TextSubstitution "rqt_image_view".
Proof.
  split.
  - vm_compute. reflexivity.
  - apply (generate_launch_description_three_directives humble_index
             "/opt/ros/humble/share/aruco_ros").
    vm_compute. reflexivity.
Defined.

(** C2: in every description that [generate_launch_description] returns,
    the second entity is the static transform publisher node and its
    argument list is the eight literal texts "0", "0", "0", "1.57", "3.14",
    "1.57", "camera_link", "stereo_gazebo_left_camera_optical_frame"; the
    list performs to these eight strings in every launch context. *)
Theorem static_transform_publisher_arguments ament_index description :
  generate_launch_description ament_index = inr description →
  ∃ tf,
    entities description !! 1 = Some (NodeAction tf) ∧
    executable tf = TextSubstitution "static_transform_publisher" ∧
    arguments tf =
      Some [TextSubstitution "0"; TextSubstitution "0"; TextSubstitution "0";
            TextSubstitution "1.57"; TextSubstitution "3.14";
            TextSubstitution "1.57"; TextSubstitution "camera_link";
            TextSubstitution "stereo_gazebo_left_camera_optical_frame"] ∧
    ∀ launch_configurations,
      ∃ tf', perform_node launch_configurations tf = inr tf' ∧
             arguments tf' =
               Some ["0"; "0"; "0"; "1.57"; "3.14"; "1.57"; "camera_link";
                     "stereo_gazebo_left_camera_optical_frame"].
Proof.
  intros Hreturn.
  destruct (generate_launch_description_inr _ _ Hreturn) as (share & _ & ->).
  exists static_transform_publisher.
  repeat split.
  intros launch_configurations.
  rewrite perform_node_static_transform_publisher.
  eexists. split; reflexivity.
Qed.

Lemma static_transform_publisher_arguments_witness :
  generate_launch_description humble_index = inr humble_description ∧
  ∃ tf,
    entities humble_description !! 1 = Some (NodeAction tf) ∧
    executable tf = TextSubstitution "static_transform_publisher" ∧
    arguments tf =
      Some [TextSubstitution "0"; TextSubstitution "0"; TextSubstitution "0";
            TextSubstitution "1.57"; TextSubstitution "3.14";
            TextSubstitution "1.57"; TextSubstitution "camera_link";
            TextSubstitution "stereo_gazebo_left_camera_optical_frame"] ∧
    ∀ launch_configurations,
      ∃ tf', perform_node launch_configurations tf = inr tf' ∧
             arguments tf' =
               Some ["0"; "0"; "0"; "1.57"; "3.14"; "1.57"; "camera_link";
                     "stereo_gazebo_left_camera_optical_frame"].
Proof.
  split.
  - vm_compute. reflexivity.
  - apply (static_transform_publisher_arguments humble_index).
    vm_compute. reflexivity.
Defined.

(** C3: in every description that [generate_launch_description] returns,
    the first entity is the included sub-launch; the keys of its launch
    arguments are exactly "marker_size" and "marker_id"; and in every
    launch context each argument performs to the value configured under
    its name when there is one, and to the default ("0.1" for
    [marker_size], "201" for [marker_id]) when there is none. *)
Theorem aruco_single_launch_forwards_markers ament_index description :
  generate_launch_description ament_index = inr description →
  ∃ include,
    entities description !! 0 = Some (IncludeAction include) ∧
    (launch_arguments include).*1 = ["marker_size"; "marker_id"] ∧
    ∀ launch_configurations,
      ∃ size id,
        perform_launch_arguments launch_configurations include
          = inr [("marker_size", size); ("marker_id", id)] ∧
        (∀ value, launch_configurations !! "marker_size" = Some value →
                  size = value) ∧
        (launch_configurations !! "marker_size" = None → size = "0.1") ∧
        (∀ value, launch_configurations !! "marker_id" = Some value →
                  id = value) ∧
        (launch_configurations !! "marker_id" = None → id = "201").
Proof.
  intros Hreturn.
  destruct (generate_launch_description_inr _ _ Hreturn) as (share & _ & ->).
  eexists. split; [reflexivity|]. split; [reflexivity|].
  intros launch_configurations.
  exists (default "0.1" (launch_configurations !! "marker_size")),
    (default "201" (launch_configurations !! "marker_id")).
  split; [apply perform_launch_arguments_aruco|].
  repeat split.
  - intros value ->. reflexivity.
  - intros ->. reflexivity.
  - intros value ->. reflexivity.
  - intros ->. reflexivity.
Qed.

Lemma aruco_single_launch_forwards_markers_witness :
  generate_launch_description humble_index = inr humble_description ∧
  ∃ include,
    entities humble_description !! 0 = Some (IncludeAction include) ∧
    (launch_arguments include).*1 = ["marker_size"; "marker_id"] ∧
    ∀ launch_configurations,
      ∃ size id,
        perform_launch_arguments launch_configurations include
          = inr [("marker_size", size); ("marker_id", id)] ∧
        (∀ value, launch_configurations !! "marker_size" = Some value →
                  size = value) ∧
        (launch_configurations !! "marker_size" = None → size = "0.1") ∧
        (∀ value, launch_configurations !! "marker_id" = Some value →
                  id = value) ∧
        (launch_configurations !! "marker_id" = None → id = "201").
Proof.
  split.
  - vm_compute. reflexivity.
  - apply (aruco_single_launch_forwards_markers humble_index).
    vm_compute. reflexivity.
Defined.
(** C7: in every description that [generate_launch_description] returns,
    the location of the source of the included sub-launch is the share
    directory of the package [aruco_ros] followed by
    "/launch/single.launch.py". *)
Theorem aruco_single_launch_location ament_index description :
  generate_launch_description ament_index = inr description →
  ∃ include share,
    entities description !! 0 = Some (IncludeAction include) ∧
    get_package_share_directory ament_index "aruco_ros" = inr share ∧
    location (launch_description_source include)
      = TextSubstitution (share +:+ "/launch/single.launch.py").
Proof.
  intros Hreturn.
  destruct (generate_launch_description_inr _ _ Hreturn)
    as (share & Hshare & ->).
  exists (aruco_single_launch (share +:+ "/launch/single.launch.py")), share.
  split; [reflexivity|]. split; [|reflexivity].
  unfold get_package_share_directory. rewrite Hshare. reflexivity.
Qed.

Lemma aruco_single_launch_location_witness :
  generate_launch_description humble_index = inr humble_description ∧
  ∃ include share,
    entities humble_description !! 0 = Some (IncludeAction include) ∧
    get_package_share_directory humble_index "aruco_ros" = inr share ∧
    location (launch_description_source include)
      = TextSubstitution (share +:+ "/launch/single.launch.py").
Proof.
  split.
  - vm_compute. reflexivity.
  - apply (aruco_single_launch_location humble_index).
    vm_compute. reflexivity.
Defined.

(** C8: in every description that [generate_launch_description] returns,
    the second entity is a node with package "tf2_ros" and with executable
    and name "static_transform_publisher"; the third is a node with
    package, executable and name "rqt_image_view" and without an argument
    list; the output of both is "screen". *)
Theorem node_directives_literal_fields ament_index description :
  generate_launch_description ament_index = inr description →
  ∃ tf viewer,
    entities description !! 1 = Some (NodeAction tf) ∧
    entities description !! 2 = Some (NodeAction viewer) ∧
    package tf = TextSubstitution "tf2_ros" ∧
    executable tf = TextSubstitution "static_transform_publisher" ∧
    name tf = TextSubstitution "static_transform_publisher" ∧
    output tf = TextSubstitution "screen" ∧
    package viewer = TextSubstitution "rqt_image_view" ∧
    executable viewer = TextSubstitution "rqt_image_view" ∧
    name viewer = TextSubstitution "rqt_image_view" ∧
    arguments viewer = None ∧
    output viewer = TextSubstitution "screen".
Proof.
  intros Hreturn.
  destruct (generate_launch_description_inr _ _ Hreturn) as (share & _ & ->).
  exists static_transform_publisher, rqt_image_view.
  cbn [entities]. unfold static_transform_publisher, rqt_image_view.
  cbn [package executable name arguments output].
  auto 12.
Qed.

Lemma node_directives_literal_fields_witness :
  generate_launch_description humble_index = inr humble_description ∧
  ∃ tf viewer,
    entities humble_description !! 1 = Some (NodeAction tf) ∧
    entities humble_description !! 2 = Some (NodeAction viewer) ∧
    package tf = TextSubstitution "tf2_ros" ∧
    executable tf = TextSubstitution "static_transform_publisher" ∧
    name tf = TextSubstitution "static_transform_publisher" ∧
    output tf = TextSubstitution "screen" ∧
    package viewer = TextSubstitution "rqt_image_view" ∧
    executable viewer = TextSubstitution "rqt_image_view" ∧
    name viewer = TextSubstitution "rqt_image_view" ∧
    arguments viewer = None ∧
    output viewer = TextSubstitution "screen".
Proof.
  split.
  - vm_compute. reflexivity.
  - apply (node_directives_literal_fields humble_index).
    vm_compute. reflexivity.
Defined.

(** ** Errors and the marker overrides *)

(** C5, as stated, fails on an installation without [aruco_ros]: overrides
    are supplied for both markers and the invocation raises. *)
Lemma launch_raises_without_aruco_ros :
  malformed_overrides !! "marker_size" = Some "big" ∧
  malformed_overrides !! "marker_id" = Some "x1" ∧
  generate_launch_description bare_index
    = inl (PackageNotFoundError "aruco_ros") ∧
  launch bare_index malformed_overrides
    = inl (PackageNotFoundError "aruco_ros").
Proof. repeat split; vm_compute; reflexivity. Qed.

(** C5 (amended): whenever the [aruco_ros] share directory is found in the
    package index, the invocation raises no error for any pair of override
    strings supplied for [marker_size] and [marker_id], whether or not
    they read as a decimal and an integer, and the included sub-launch
    forwards exactly these two strings. *)
Theorem marker_overrides_forwarded_unchanged
    ament_index launch_configurations share size id :
  ament_index !! "aruco_ros" = Some share →
  launch_configurations !! "marker_size" = Some size →
  launch_configurations !! "marker_id" = Some id →
  ∃ description include performed include',
    generate_launch_description ament_index = inr description ∧
    entities description !! 0 = Some (IncludeAction include) ∧
    perform_launch_arguments launch_configurations include
      = inr [("marker_size", size); ("marker_id", id)] ∧
    launch ament_index launch_configurations = inr performed ∧
    entities performed !! 0 = Some (IncludeAction include') ∧
    launch_arguments include' = [("marker_size", size); ("marker_id", id)].
Proof.
  intros Hshare Hsize Hid.
  eexists _, _, _, _.
  split; [apply generate_launch_description_found, Hshare|].
  split; [reflexivity|].
  split.
  { rewrite perform_launch_arguments_aruco, Hsize, Hid. reflexivity. }
  split; [apply launch_found, Hshare|].
  split; [reflexivity|].
  cbn [launch_arguments]. rewrite Hsize, Hid. reflexivity.
Qed.

Lemma marker_overrides_forwarded_unchanged_witness :
  humble_index !! "aruco_ros" = Some "/opt/ros/humble/share/aruco_ros" ∧
  malformed_overrides !! "marker_size" = Some "big" ∧
  malformed_overrides !! "marker_id" = Some "x1" ∧
  ∃ description include performed include',
    generate_launch_description humble_index = inr description ∧
    entities description !! 0 = Some (IncludeAction include) ∧
    perform_launch_arguments malformed_overrides include
      = inr [("marker_size", "big"); ("marker_id", "x1")] ∧
    launch humble_index malformed_overrides = inr performed ∧
    entities performed !! 0 = Some (IncludeAction include') ∧
    launch_arguments include' = [("marker_size", "big"); ("marker_id", "x1")].
Proof.
  split; [vm_compute; reflexivity|].
  split; [vm_compute; reflexivity|].
  split; [vm_compute; reflexivity|].
  apply (marker_overrides_forwarded_unchanged humble_index malformed_overrides
           "/opt/ros/humble/share/aruco_ros" "big" "x1");
    vm_compute; reflexivity.
Defined.
(** ** What the result depends on *)

(** C4, as stated, fails across installations: with the same launch
    configurations, two installations that keep [aruco_ros] in different
    places both return a description, and the two descriptions differ. *)
Lemma launch_differs_between_installations :
  ∃ description1 description2 performed1 performed2,
    generate_launch_description humble_index = inr description1 ∧
    generate_launch_description overlay_index = inr description2 ∧
    description1 ≠ description2 ∧
    launch humble_index sample_overrides = inr performed1 ∧
    launch overlay_index sample_overrides = inr performed2 ∧
    performed1 ≠ performed2.
Proof.
  eexists _, _, _, _.
  split; [vm_compute; reflexivity|].
  split; [vm_compute; reflexivity|].
  split; [discriminate|].
  split; [vm_compute; reflexivity|].
  split; [vm_compute; reflexivity|].
  discriminate.
Qed.

(** C4 (amended): any two invocations under the same configuration of
    [marker_size] and [marker_id] and the same [aruco_ros] entry of the
    package index return equal launch descriptions: the same outcome of
    [generate_launch_description], and the same description once its
    substitutions are performed. *)
Theorem generate_launch_description_deterministic
    ament_index1 ament_index2 launch_configurations1 launch_configurations2 :
  ament_index1 !! "aruco_ros" = ament_index2 !! "aruco_ros" →
  launch_configurations1 !! "marker_size"
    = launch_configurations2 !! "marker_size" →
  launch_configurations1 !! "marker_id"
    = launch_configurations2 !! "marker_id" →
  generate_launch_description ament_index1
    = generate_launch_description ament_index2 ∧
  ∀ description,
    generate_launch_description ament_index1 = inr description →
    perform_launch_description launch_configurations1 description
    = perform_launch_description launch_configurations2 description.
Proof.
  intros Hshare Hsize Hid.
  split; [apply generate_launch_description_agree, Hshare|].
  intros description Hreturn.
  pose proof (launch_agree ament_index1 ament_index1 _ _ eq_refl Hsize Hid)
    as Hlaunch.
  unfold launch in Hlaunch. rewrite Hreturn in Hlaunch. exact Hlaunch.
Qed.

Lemma generate_launch_description_deterministic_witness :
  humble_index !! "aruco_ros"
    = (<[ "tf2_ros" := "/opt/ros/humble/share/tf2_ros" ]> humble_index)
        !! "aruco_ros" ∧
  sample_overrides !! "marker_size"
    = (<[ "use_sim_time" := "true" ]> sample_overrides) !! "marker_size" ∧
  sample_overrides !! "marker_id"
    = (<[ "use_sim_time" := "true" ]> sample_overrides) !! "marker_id" ∧
  generate_launch_description humble_index
    = generate_launch_description
        (<[ "tf2_ros" := "/opt/ros/humble/share/tf2_ros" ]> humble_index) ∧
  ∀ description,
    generate_launch_description humble_index = inr description →
    perform_launch_description sample_overrides description
    = perform_launch_description
        (<[ "use_sim_time" := "true" ]> sample_overrides) description.
Proof.
  split; [vm_compute; reflexivity|].
  split; [vm_compute; reflexivity|].
  split; [vm_compute; reflexivity|].
  apply (generate_launch_description_deterministic humble_index
           (<[ "tf2_ros" := "/opt/ros/humble/share/tf2_ros" ]> humble_index)
           sample_overrides
           (<[ "use_sim_time" := "true" ]> sample_overrides));
    vm_compute; reflexivity.
Defined.

(** C6: changing the launch configurations (in particular the values of
    [marker_size] and [marker_id]) leaves the static transform publisher
    node and the image viewer node as they were; two invocations on one
    installation differ at most in their first entity, the included
    sub-launch. *)
Theorem node_directives_unaffected_by_markers
    ament_index launch_configurations launch_configurations'
    (performed performed' : LaunchDescription string) :
  launch ament_index launch_configurations = inr performed →
  launch ament_index launch_configurations' = inr performed' →
  ∃ include include' tf viewer,
    entities performed
      = [IncludeAction include; NodeAction tf; NodeAction viewer] ∧
    entities performed'
      = [IncludeAction include'; NodeAction tf; NodeAction viewer].
Proof.
  intros Hlaunch Hlaunch'.
  destruct (ament_index !! "aruco_ros") as [share|] eqn:Hshare.
  - rewrite (launch_found _ _ _ Hshare) in Hlaunch.
    rewrite (launch_found _ _ _ Hshare) in Hlaunch'.
    inversion Hlaunch; subst performed.
    inversion Hlaunch'; subst performed'.
    cbn [entities]. eauto 8.
  - rewrite (launch_missing _ _ Hshare) in Hlaunch. discriminate.
Qed.

Lemma node_directives_unaffected_by_markers_witness :
  ∃ performed performed',
    launch humble_index ∅ = inr performed ∧
    launch humble_index sample_overrides = inr performed' ∧
    performed ≠ performed' ∧
    ∃ include include' tf viewer,
      entities performed
        = [IncludeAction include; NodeAction tf; NodeAction viewer] ∧
      entities performed'
        = [IncludeAction include'; NodeAction tf; NodeAction viewer].
Proof.
  eexists _, _.
  split; [vm_compute; reflexivity|].
  split; [vm_compute; reflexivity|].
  split; [discriminate|].
  apply (node_directives_unaffected_by_markers humble_index ∅ sample_overrides);
    vm_compute; reflexivity.
Defined.

(** Everything in the package index other than the [aruco_ros] entry, and
    everything in the launch configurations other than the two marker
    entries, can be erased without changing the outcome. *)
Lemma launch_erase_rest ament_index launch_configurations :
  launch ament_index launch_configurations
  = launch
      (filter (λ entry, entry.1 = "aruco_ros") ament_index)
      (filter (λ entry, entry.1 = "marker_size" ∨ entry.1 = "marker_id")
              launch_configurations).
Proof.
  apply launch_agree; apply option_eq; intros value;
    rewrite map_lookup_filter_Some; cbn [fst];
    (split;
     [ intros Hvalue; split; [exact Hvalue|auto]
     | intros [Hvalue _]; exact Hvalue ]).
Qed.

(** C9: two invocations that agree on the [aruco_ros] entry of the package
    index and on the launch configurations [marker_size] and [marker_id]
    have the same outcome, whatever else the package index and the launch
    configurations hold. *)
Theorem launch_depends_on_three_inputs
    ament_index1 ament_index2 launch_configurations1 launch_configurations2 :
  ament_index1 !! "aruco_ros" = ament_index2 !! "aruco_ros" →
  launch_configurations1 !! "marker_size"
    = launch_configurations2 !! "marker_size" →
  launch_configurations1 !! "marker_id"
    = launch_configurations2 !! "marker_id" →
  launch ament_index1 launch_configurations1
  = launch ament_index2 launch_configurations2.
Proof.
  intros Hshare Hsize Hid.
  rewrite (launch_erase_rest ament_index1), (launch_erase_rest ament_index2).
  f_equal; apply map_eq; intros key; apply option_eq; intros value;
    rewrite !map_lookup_filter_Some; cbn [fst].
  - split; intros [Hvalue ->]; (split; [congruence|reflexivity]).
  - split; (intros [Hvalue [-> | ->]]; (split; [congruence|auto])).
Qed.

Lemma launch_depends_on_three_inputs_witness :
  humble_index !! "aruco_ros"
    = (<[ "rviz2" := "/opt/ros/humble/share/rviz2" ]> humble_index)
        !! "aruco_ros" ∧
  sample_overrides !! "marker_size"
    = (<[ "reference_frame" := "base" ]> sample_overrides) !! "marker_size" ∧
  sample_overrides !! "marker_id"
    = (<[ "reference_frame" := "base" ]> sample_overrides) !! "marker_id" ∧
  launch humble_index sample_overrides
  = launch (<[ "rviz2" := "/opt/ros/humble/share/rviz2" ]> humble_index)
           (<[ "reference_frame" := "base" ]> sample_overrides).
Proof.
  split; [vm_compute; reflexivity|].
  split; [vm_compute; reflexivity|].
  split; [vm_compute; reflexivity|].
  apply (launch_depends_on_three_inputs humble_index
           (<[ "rviz2" := "/opt/ros/humble/share/rviz2" ]> humble_index)
           sample_overrides
           (<[ "reference_frame" := "base" ]> sample_overrides));
    vm_compute; reflexivity.
Defined.
End claims.

(** * Further properties of the launch file *)

Section further.
Implicit Types (ament_index : gmap string string).
Implicit Types (launch_configurations : gmap string string).
Implicit Types (description : LaunchDescription Substitution).

(** ** Strings: a common suffix can be cancelled *)



(** ** When an invocation raises *)




(** ** What exactly the outcome depends on *)


(** X4: on an installation with [aruco_ros], two launch contexts give the
    same performed description if and only if they give the same effective
    marker values, an absent configuration counting as its default. *)
Theorem launch_eq_iff_effective_markers
    ament_index share launch_configurations1 launch_configurations2 :
  ament_index !! "aruco_ros" = Some share →
  launch ament_index launch_configurations1
    = launch ament_index launch_configurations2 ↔
  default "0.1" (launch_configurations1 !! "marker_size")
    = default "0.1" (launch_configurations2 !! "marker_size") ∧
  default "201" (launch_configurations1 !! "marker_id")
    = default "201" (launch_configurations2 !! "marker_id").
Proof.
  intros Hshare.
  rewrite (launch_found _ launch_configurations1 _ Hshare),
    (launch_found _ launch_configurations2 _ Hshare).
  split.
  - intros Hsame. injection Hsame as Hsize Hid. split; assumption.
  - intros [-> ->]. reflexivity.
Qed.

Lemma launch_eq_iff_effective_markers_witness :
  humble_index !! "aruco_ros" = Some "/opt/ros/humble/share/aruco_ros" ∧
  (launch humble_index ∅ = launch humble_index sample_overrides ↔
   default "0.1" ((∅ : gmap string string) !! "marker_size")
     = default "0.1" (sample_overrides !! "marker_size") ∧
   default "201" ((∅ : gmap string string) !! "marker_id")
     = default "201" (sample_overrides !! "marker_id")).
Proof.
  split.
  - vm_compute. reflexivity.
  - apply (launch_eq_iff_effective_markers humble_index
             "/opt/ros/humble/share/aruco_ros" ∅ sample_overrides).
    vm_compute. reflexivity.
Defined.
(** X5: supplying the default values "0.1" and "201" explicitly gives the
    same outcome as supplying no value for [marker_size] and [marker_id]
    at all. *)
Theorem explicit_defaults_same_as_unset ament_index launch_configurations :
  launch ament_index
    (<[ "marker_size" := "0.1" ]>
       (<[ "marker_id" := "201" ]> launch_configurations))
  = launch ament_index
      (delete "marker_size" (delete "marker_id" launch_configurations)).
Proof.
  destruct (ament_index !! "aruco_ros") as [share|] eqn:Hshare.
  - rewrite !(launch_found _ _ _ Hshare).
    rewrite lookup_insert_eq.
    rewrite lookup_insert_ne by discriminate. rewrite lookup_insert_eq.
    rewrite lookup_delete_eq.
    rewrite lookup_delete_ne by discriminate. rewrite lookup_delete_eq.
    reflexivity.
  - rewrite !(launch_missing _ _ Hshare). reflexivity.
Qed.

(** ** Which part of the result each input reaches *)

(** X6: in the same launch context, two installations that both have
    [aruco_ros] give performed descriptions that differ at most in the
    location of the included launch file; the forwarded marker arguments
    and the two nodes are the same. *)
Theorem relocation_changes_only_location
    ament_index1 ament_index2 launch_configurations
    (performed1 performed2 : LaunchDescription string) :
  launch ament_index1 launch_configurations = inr performed1 →
  launch ament_index2 launch_configurations = inr performed2 →
  ∃ location1 location2 forwarded tf viewer,
    entities performed1 =
      [IncludeAction
         {| launch_description_source := {| location := location1 |};
            launch_arguments := forwarded |};
       NodeAction tf; NodeAction viewer] ∧
    entities performed2 =
      [IncludeAction
         {| launch_description_source := {| location := location2 |};
            launch_arguments := forwarded |};
       NodeAction tf; NodeAction viewer].
Proof.
  intros Hlaunch1 Hlaunch2.
  destruct (ament_index1 !! "aruco_ros") as [share1|] eqn:Hshare1;
    [|rewrite (launch_missing _ _ Hshare1) in Hlaunch1; discriminate].
  destruct (ament_index2 !! "aruco_ros") as [share2|] eqn:Hshare2;
    [|rewrite (launch_missing _ _ Hshare2) in Hlaunch2; discriminate].
  rewrite (launch_found _ _ _ Hshare1) in Hlaunch1.
  rewrite (launch_found _ _ _ Hshare2) in Hlaunch2.
  injection Hlaunch1 as <-. injection Hlaunch2 as <-.
  cbn [entities]. eexists _, _, _, _, _. split; reflexivity.
Qed.

Lemma relocation_changes_only_location_witness :
  ∃ performed1 performed2,
    launch humble_index sample_overrides = inr performed1 ∧
    launch overlay_index sample_overrides = inr performed2 ∧
    performed1 ≠ performed2 ∧
    ∃ location1 location2 forwarded tf viewer,
      entities performed1 =
        [IncludeAction
           {| launch_description_source := {| location := location1 |};
              launch_arguments := forwarded |};
         NodeAction tf; NodeAction viewer] ∧
      entities performed2 =
        [IncludeAction
           {| launch_description_source := {| location := location2 |};
              launch_arguments := forwarded |};
         NodeAction tf; NodeAction viewer].
Proof.
  eexists _, _.
  split; [vm_compute; reflexivity|].
  split; [vm_compute; reflexivity|].
  split; [discriminate|].
  apply (relocation_changes_only_location humble_index overlay_index
           sample_overrides);
    vm_compute; reflexivity.
Defined.

(** X7: on one installation, no launch configuration can redirect the
    inclusion: two launch contexts give performed descriptions with the
    same location of the included launch file, the path computed by
    [aruco_launch_file], and the same two nodes; only the forwarded
    arguments can differ. *)
Theorem include_location_unaffected_by_launch_configurations
    ament_index launch_configurations1 launch_configurations2
    (performed1 performed2 : LaunchDescription string) :
  launch ament_index launch_configurations1 = inr performed1 →
  launch ament_index launch_configurations2 = inr performed2 →
  ∃ path forwarded1 forwarded2 tf viewer,
    aruco_launch_file ament_index = inr path ∧
    entities performed1 =
      [IncludeAction
         {| launch_description_source := {| location := path |};
            launch_arguments := forwarded1 |};
       NodeAction tf; NodeAction viewer] ∧
    entities performed2 =
      [IncludeAction
         {| launch_description_source := {| location := path |};
            launch_arguments := forwarded2 |};
       NodeAction tf; NodeAction viewer].
Proof.
  intros Hlaunch1 Hlaunch2.
  destruct (ament_index !! "aruco_ros") as [share|] eqn:Hshare;
    [|rewrite (launch_missing _ _ Hshare) in Hlaunch1; discriminate].
  rewrite (launch_found _ _ _ Hshare) in Hlaunch1.
  rewrite (launch_found _ _ _ Hshare) in Hlaunch2.
  injection Hlaunch1 as <-. injection Hlaunch2 as <-.
  cbn [entities]. eexists _, _, _, _, _.
  split; [|split; reflexivity].
  apply aruco_launch_file_found, Hshare.
Qed.

Lemma include_location_unaffected_by_launch_configurations_witness :
  ∃ performed1 performed2,
    launch humble_index ∅ = inr performed1 ∧
    launch humble_index malformed_overrides = inr performed2 ∧
    performed1 ≠ performed2 ∧
    ∃ path forwarded1 forwarded2 tf viewer,
      aruco_launch_file humble_index = inr path ∧
      entities performed1 =
        [IncludeAction
           {| launch_description_source := {| location := path |};
              launch_arguments := forwarded1 |};
         NodeAction tf; NodeAction viewer] ∧
      entities performed2 =
        [IncludeAction
           {| launch_description_source := {| location := path |};
              launch_arguments := forwarded2 |};
         NodeAction tf; NodeAction viewer].
Proof.
  eexists _, _.
  split; [vm_compute; reflexivity|].
  split; [vm_compute; reflexivity|].
  split; [discriminate|].
  apply (include_location_unaffected_by_launch_configurations humble_index
           ∅ malformed_overrides);
    vm_compute; reflexivity.
Defined.
End further.
